(** * RecipientsDisplay: the recipient fitting pass

    A shallow embedding of [src/vue/src/components/RecipientsDisplay.vue]
    (the final variant of the component, the one that measures text on a
    canvas and reserves room for the badge) and the properties of its
    fitting pass [formatRecipientsForDisplay].

    Modelling choices.
    - Pixel widths are integers ([Z]): [clientWidth], [offsetWidth] and
      the fallback formula [text.length * 8 + 20] are integers.  A canvas
      measurement is covered where its widths are whole numbers.
    - Strings are [string], read as sequences of code units below 256;
      [text.length] is [String.length].
    - The DOM and the canvas are the host's: the record [Host] says which
      elements exist (and the font the code derives from their computed
      style) and whether a 2d context can be had (and what it measures).
      The lazily created canvas objects are the measurer's own cache and
      are not part of the component state modelled here.
    - The component's reactive state is the record [Component]: the
      [recipients] prop, the [container] ref and the two output refs
      [displayedRecipients] and [badgeNumber].  The pass is a function
      [Component -> Component]. *)

From Stdlib Require Import ZArith List String Ascii Bool Lia DecimalString.
Import ListNotations.

Local Open Scope Z_scope.

(** ** Strings *)

Module Str.

Local Open Scope string_scope.

(** [n.toString()] for an integer [n]: its decimal digits. *)
Definition toString (z : Z) : string := NilZero.string_of_int (Z.to_int z).

(** [Array.prototype.join(", ")], the comma-space join. *)
Definition join (l : list string) : string := String.concat ", " l.

(** Every item followed by its separator, as the loop appends the
    items that are not the last one. *)
Fixpoint separated (l : list string) : string :=
  match l with
  | [] => ""
  | r :: l' => (r ++ ", ") ++ separated l'
  end.

End Str.

(** ** The text measurer *)

Module Measurer.

(** What the host environment offers to [calculateWidthOfTextForElement]:
    - [elementFont id] is [None] when [document.getElementById id] finds
      nothing, and otherwise the font the code builds from the element's
      computed style (font size and first font family);
    - [context2d] is [None] when no 2d canvas context can be obtained,
      and otherwise [measureText] as a function of the context's font and
      the text. *)
Record Host := {
  elementFont : string -> option string;
  context2d : option (string -> string -> Z)
}.

(** [calculateWidthOfTextForElement(text, elementID)]. *)
Definition calculateWidthOfTextForElement (h : Host) (text elementID : string) : Z :=
  match context2d h, elementFont h elementID with
  | Some measureText, Some font => measureText font text
  | _, _ => Z.of_nat (String.length text) * 8 + 20
  end.

(** The host without a rendering surface: every measurement falls back
    to the formula. *)
Definition headless : Host :=
  {| elementFont := fun _ => None; context2d := None |}.

(** The host in which an arbitrary function [m] of the text and the
    element does the measuring. *)
Definition hostOf (m : string -> string -> Z) : Host :=
  {| elementFont := fun id => Some id;
     context2d := Some (fun font text => m text font) |}.

End Measurer.

Import Measurer.

(** ** The component *)

Record Component := {
  recipients : list string;        (* props.recipients *)
  container : option Z;            (* container.value?.clientWidth *)
  displayedRecipients : string;    (* ref('') *)
  badgeNumber : Z                  (* ref(0) *)
}.

Section Fitter.

Variable host : Host.

Local Open Scope string_scope.

(** [props.recipients.entries()]. *)
Definition entries (rs : list string) : list (nat * string) :=
  combine (seq 0 (List.length rs)) rs.

(** The body of the [for ... of] loop, once per entry; [len] is
    [props.recipients.length].  The result is the final
    [recipientsString] and the final [badgeNumber.value]. *)
Fixpoint loop (len : nat) (widthOfEllipses : Z) (es : list (nat * string))
    (totalAvailableContainerWidth : Z) (recipientsString : string)
    (badge : Z) : string * Z :=
  match es with
  | [] => (recipientsString, badge)
  | (index, recipient) :: es' =>
      let numberOfHiddenRecipients := Z.of_nat len - Z.of_nat index in
      let isFirstRecipient := (index =? 0)%nat in
      let badgeNumberValue :=
        if isFirstRecipient then numberOfHiddenRecipients - 1
        else numberOfHiddenRecipients in
      let badgeLeftPadding := 2 in
      let badgeRightPadding := 2 in
      let badgeMargin := 5 in
      let widthOfBadge :=
        calculateWidthOfTextForElement host
          ("+" ++ Str.toString numberOfHiddenRecipients) "badge-measure-element"
        + badgeMargin + badgeLeftPadding + badgeRightPadding in
      let isLastRecipient := (Z.of_nat index =? Z.of_nat len - 1)%Z in
      let recipientText :=
        if isLastRecipient then recipient else recipient ++ ", " in
      let widthOfRecipient :=
        calculateWidthOfTextForElement host recipientText
          "recipients-text-measure-element" in
      if (totalAvailableContainerWidth >?
            widthOfRecipient
            + (if isLastRecipient then 0 else widthOfEllipses)
            + (if badgeNumberValue >? 0 then widthOfBadge else 0))%Z
      then
        loop len widthOfEllipses es'
          (totalAvailableContainerWidth - widthOfRecipient)
          (recipientsString ++ recipientText) badge
      else
        (recipientsString ++ (if isFirstRecipient then recipient else "..."),
         badgeNumberValue)
  end.

(** [container.value?.clientWidth || 0]. *)
Definition clientWidthOr0 (c : Component) : Z :=
  match container c with
  | Some w => if (w =? 0)%Z then 0 else w
  | None => 0
  end.

(** [formatRecipientsForDisplay()]. *)
Definition formatRecipientsForDisplay (c : Component) : Component :=
  let totalAvailableContainerWidth := clientWidthOr0 c in
  let recipientsString := "" in
  let widthOfEllipses :=
    calculateWidthOfTextForElement host ", ..." "recipients-text-measure-element" in
  (* badgeNumber.value = 0 *)
  let c0 := {| recipients := recipients c; container := container c;
               displayedRecipients := displayedRecipients c;
               badgeNumber := 0 |} in
  let '(recipientsString', badge') :=
    loop (List.length (recipients c0)) widthOfEllipses (entries (recipients c0))
      totalAvailableContainerWidth recipientsString (badgeNumber c0) in
  (* displayedRecipients.value = recipientsString *)
  {| recipients := recipients c0; container := container c0;
     displayedRecipients := recipientsString';
     badgeNumber := badge' |}.

End Fitter.

(** A freshly set up component: both output refs at their initial values. *)
Definition mount (rs : list string) (clientWidth : option Z) : Component :=
  {| recipients := rs; container := clientWidth;
     displayedRecipients := EmptyString; badgeNumber := 0 |}.

(** The pair of the spec: what one pass shows for a recipient list in a
    container of a given width. *)
Definition fit (h : Host) (containerWidth : Z) (rs : list string) : string * Z :=
  let c := formatRecipientsForDisplay h (mount rs (Some containerWidth)) in
  (displayedRecipients c, badgeNumber c).

(** ** The quantities of the fit test, by name

    The loop body computes them inline; they are named here so that the
    properties can speak of them.  [loop_cons] shows that they are the
    loop's own. *)

Section FitTest.

Variable host : Host.

Local Open Scope string_scope.

(** [badgeNumberValue] at entry [index] of a list of [len] recipients:
    the badge number a failure at [index] produces. *)
Definition badgeNumberValueAt (len index : nat) : Z :=
  if (index =? 0)%nat then Z.of_nat len - Z.of_nat index - 1
  else Z.of_nat len - Z.of_nat index.

(** The text whose width is taken for the badge at entry [index]. *)
Definition badgeLabelAt (len index : nat) : string :=
  "+" ++ Str.toString (Z.of_nat len - Z.of_nat index).

(** [widthOfBadge] at entry [index]. *)
Definition widthOfBadgeAt (len index : nat) : Z :=
  calculateWidthOfTextForElement host (badgeLabelAt len index)
    "badge-measure-element" + 5 + 2 + 2.

(** The third summand of the fit test. *)
Definition badgeReservationAt (len index : nat) : Z :=
  if (badgeNumberValueAt len index >? 0)%Z then widthOfBadgeAt len index else 0.

(** [isLastRecipient]. *)
Definition isLastAt (len index : nat) : bool :=
  (Z.of_nat index =? Z.of_nat len - 1)%Z.

(** [recipientText]. *)
Definition recipientTextAt (len index : nat) (recipient : string) : string :=
  if isLastAt len index then recipient else recipient ++ ", ".

(** [widthOfRecipient]. *)
Definition widthOfRecipientAt (len index : nat) (recipient : string) : Z :=
  calculateWidthOfTextForElement host (recipientTextAt len index recipient)
    "recipients-text-measure-element".

(** The right-hand side of the fit test. *)
Definition requiredAt (len : nat) (widthOfEllipses : Z) (index : nat)
    (recipient : string) : Z :=
  widthOfRecipientAt len index recipient
  + (if isLastAt len index then 0 else widthOfEllipses)
  + badgeReservationAt len index.

(** The index at which the loop breaks, if it does. *)
Fixpoint breakIndex (len : nat) (widthOfEllipses : Z) (es : list (nat * string))
    (totalAvailableContainerWidth : Z) : option nat :=
  match es with
  | [] => None
  | (index, recipient) :: es' =>
      if (totalAvailableContainerWidth >?
            requiredAt len widthOfEllipses index recipient)%Z
      then breakIndex len widthOfEllipses es'
             (totalAvailableContainerWidth - widthOfRecipientAt len index recipient)
      else Some index
  end.

(** [widthOfEllipses], measured once before the loop. *)
Definition widthOfEllipses : Z :=
  calculateWidthOfTextForElement host ", ..." "recipients-text-measure-element".

(** Where one pass over [rs] in a container of width [w] stops. *)
Definition stopIndex (w : Z) (rs : list string) : option nat :=
  breakIndex (List.length rs) widthOfEllipses (entries rs) w.

(** The sum of the measured widths of the entries [es]. *)
Definition widthsOf (len : nat) (es : list (nat * string)) : Z :=
  fold_right (fun e acc => widthOfRecipientAt len (fst e) (snd e) + acc) 0 es.

(** The sum of the measured widths of all items, every item but the last
    one measured with its separator. *)
Definition totalWidth (rs : list string) : Z :=
  widthsOf (List.length rs) (entries rs).

End FitTest.

(** What a pass that stops at [stop] has put in [displayedRecipients]. *)
Definition rendered (rs : list string) (stop : option nat) : string :=
  match stop with
  | None => Str.join rs
  | Some O => hd EmptyString rs
  | Some i => Str.join (firstn i rs ++ ["..."%string])
  end.

(** ... in [badgeNumber] ... *)
Definition hiddenAt (len : nat) (stop : option nat) : Z :=
  match stop with
  | None => 0
  | Some i => badgeNumberValueAt len i
  end.

(** ... and how many recipients it appended verbatim. *)
Definition shownCount (len : nat) (stop : option nat) : nat :=
  match stop with
  | None => len
  | Some O => 1
  | Some i => i
  end.

(** [s] ends with [suffix]. *)
Definition EndsWith (s suffix : string) : Prop :=
  exists p : string, s = (p ++ suffix)%string.

(** ** The algorithm as the specification words it

    Section 4.2 of the specification, line by line: [measure] takes the
    text and the style it renders in, the recipients are read by index. *)

Module Reference.
Section Reference.

Variable measure : string -> string -> Z.
Variables textStyle badgeStyle : string.
Variables badgeMargin badgeLeftPad badgeRightPad : Z.

Local Open Scope string_scope.

Definition candidateHiddenCount (N i : nat) : Z :=
  let remainingItems := Z.of_nat N - Z.of_nat i in
  if (i =? 0)%nat then remainingItems - 1 else remainingItems.

Definition badgeReserved (N i : nat) : Z :=
  if (candidateHiddenCount N i >? 0)%Z
  then measure ("+" ++ Str.toString (candidateHiddenCount N i)) badgeStyle
       + badgeMargin + badgeLeftPad + badgeRightPad
  else 0.

(** [for i in 0..N-1], from the indices still to visit. *)
Fixpoint scan (N : nat) (recipients : list string) (todo : list nat)
    (remainingWidth : Z) (output : string) : string * Z :=
  match todo with
  | [] => (output, 0)
  | i :: todo' =>
      let isFirst := (i =? 0)%nat in
      let isLast := (Z.of_nat i =? Z.of_nat N - 1)%Z in
      let ellipsisReserved := if isLast then 0 else measure ", ..." textStyle in
      let itemText :=
        if isLast then nth i recipients "" else nth i recipients "" ++ ", " in
      let itemWidth := measure itemText textStyle in
      if (remainingWidth >? itemWidth + ellipsisReserved + badgeReserved N i)%Z
      then scan N recipients todo' (remainingWidth - itemWidth) (output ++ itemText)
      else (output ++ (if isFirst then nth i recipients "" else "..."),
            candidateHiddenCount N i)
  end.

Definition fit (containerWidth : Z) (recipients : list string) : string * Z :=
  let N := List.length recipients in
  scan N recipients (seq 0 N) containerWidth "".

End Reference.
End Reference.

(** The reference algorithm with the component's measurer, its two
    measured elements and its badge paddings. *)
Definition referenceFit (h : Host) : Z -> list string -> string * Z :=
  Reference.fit (calculateWidthOfTextForElement h)
    "recipients-text-measure-element" "badge-measure-element" 5 2 2.

Definition referenceBadgeReserved (h : Host) : nat -> nat -> Z :=
  Reference.badgeReserved (calculateWidthOfTextForElement h)
    "badge-measure-element" 5 2 2.

(** ** The measurer with its canvas

    [initializeCanvasIfNeeded] and [calculateWidthOfTextForElement] as they
    are written: the module-level [reusableCanvas] and [reusableContext]
    are a state that every call reads and writes, and the context's [font]
    is assigned before each measurement. *)

Module Stateful.

Local Open Scope string_scope.

(** A 2d context: its [font] and, as a function of the font and the text,
    the width [measureText(text).width] reports. *)
Record Context := {
  font : string;
  measureText : string -> string -> Z
}.

(** A canvas element: what [getContext('2d')] returns, [None] for null. *)
Record Canvas := { getContext : option Context }.

(** The two properties read from an element's computed style. *)
Record Element := {
  fontSizeProperty : string;       (* getPropertyValue('font-size') *)
  fontFamilyProperty : string      (* getPropertyValue('font-family') *)
}.

(** The document and the engine: the canvas [document.createElement]
    makes, the elements by id, and the text of the number [parseFloat]
    reads from a property value. *)
Record Document := {
  createElement : Canvas;
  getElementById : string -> option Element;
  parseFloatText : string -> string
}.

(** [reusableCanvas] and [reusableContext]. *)
Record Cache := {
  reusableCanvas : option Canvas;
  reusableContext : option Context
}.

(** A computation that reads and writes the cache. *)
Definition M (A : Type) : Type := Cache -> A * Cache.

Definition ret {A : Type} (a : A) : M A := fun k => (a, k).

Definition bind {A B : Type} (m : M A) (f : A -> M B) : M B :=
  fun k => let '(a, k') := m k in f a k'.

Notation "x <- m ;; f" := (bind m (fun x => f))
  (at level 61, m at next level, right associativity).

(** [s.split(', ')[0]]: the text before the first comma-space. *)
Fixpoint firstField (s : string) : string :=
  match s with
  | "" => ""
  | String ch s' => if prefix ", " s then "" else String ch (firstField s')
  end.

(** The font assigned to the context for an element. *)
Definition fontFor (d : Document) (el : Element) : string :=
  let fontSize := parseFloatText d (fontSizeProperty el) in
  let fontFamily := firstField (fontFamilyProperty el) in
  fontSize ++ "px " ++ fontFamily.

(** [initializeCanvasIfNeeded()]. *)
Definition initializeCanvasIfNeeded (d : Document) (k : Cache) : Cache :=
  let canvas :=
    match reusableCanvas k with
    | None => createElement d
    | Some canvas => canvas
    end in
  let context :=
    match reusableContext k with
    | None => getContext canvas
    | Some context => Some context
    end in
  {| reusableCanvas := Some canvas; reusableContext := context |}.

(** [calculateWidthOfTextForElement(text, elementID)]. *)
Definition calculateWidthOfTextForElement (d : Document) (text elementID : string)
    : M Z :=
  fun k =>
    let measureElement := getElementById d elementID in
    let k1 := initializeCanvasIfNeeded d k in
    match reusableContext k1, measureElement with
    | Some context, Some el =>
        let context' :=
          {| font := fontFor d el; measureText := measureText context |} in
        (measureText context' (font context') text,
         {| reusableCanvas := reusableCanvas k1; reusableContext := Some context' |})
    | _, _ => (Z.of_nat (String.length text) * 8 + 20, k1)
    end.

(** The loop of [formatRecipientsForDisplay], the measurements in the
    order of the source. *)
Fixpoint loop (d : Document) (len : nat) (widthOfEllipses : Z)
    (es : list (nat * string)) (totalAvailableContainerWidth : Z)
    (recipientsString : string) (badge : Z) : M (string * Z) :=
  match es with
  | [] => ret (recipientsString, badge)
  | (index, recipient) :: es' =>
      let numberOfHiddenRecipients := Z.of_nat len - Z.of_nat index in
      let isFirstRecipient := (index =? 0)%nat in
      let badgeNumberValue :=
        if isFirstRecipient then numberOfHiddenRecipients - 1
        else numberOfHiddenRecipients in
      let badgeLeftPadding := 2 in
      let badgeRightPadding := 2 in
      let badgeMargin := 5 in
      widthOfBadgeText <-
        calculateWidthOfTextForElement d
          ("+" ++ Str.toString numberOfHiddenRecipients) "badge-measure-element" ;;
      let widthOfBadge :=
        widthOfBadgeText + badgeMargin + badgeLeftPadding + badgeRightPadding in
      let isLastRecipient := (Z.of_nat index =? Z.of_nat len - 1)%Z in
      let recipientText :=
        if isLastRecipient then recipient else recipient ++ ", " in
      widthOfRecipient <-
        calculateWidthOfTextForElement d recipientText
          "recipients-text-measure-element" ;;
      if (totalAvailableContainerWidth >?
            widthOfRecipient
            + (if isLastRecipient then 0 else widthOfEllipses)
            + (if badgeNumberValue >? 0 then widthOfBadge else 0))%Z
      then
        loop d len widthOfEllipses es'
          (totalAvailableContainerWidth - widthOfRecipient)
          (recipientsString ++ recipientText) badge
      else
        ret (recipientsString ++ (if isFirstRecipient then recipient else "..."),
             badgeNumberValue)
  end.

(** [formatRecipientsForDisplay()]. *)
Definition formatRecipientsForDisplay (d : Document) (c : Component) : M Component :=
  let totalAvailableContainerWidth := clientWidthOr0 c in
  let recipientsString := "" in
  widthOfEllipses <-
    calculateWidthOfTextForElement d ", ..." "recipients-text-measure-element" ;;
  result <-
    loop d (List.length (recipients c)) widthOfEllipses (entries (recipients c))
      totalAvailableContainerWidth recipientsString 0 ;;
  ret {| recipients := recipients c; container := container c;
         displayedRecipients := fst result;
         badgeNumber := snd result |}.

(** The host a document and a cache make: the fonts of the elements the
    document has, and the metrics of the context the cache holds or, if it
    holds none, of the context its canvas (or a new one) gives. *)
Definition hostOfCache (d : Document) (k : Cache) : Host :=
  {| elementFont := fun id => option_map (fontFor d) (getElementById d id);
     context2d := option_map measureText
                    (reusableContext (initializeCanvasIfNeeded d k)) |}.

End Stateful.

(** ** The earlier variants of the component

    The first document of [RecipientsDisplay.vue] and [unnamed/part_000]
    measure text by filling a hidden element, [#measure-element], and
    reading its [offsetWidth]; the text the element holds is a state that
    every measurement overwrites. *)

(** [calculateWidthOfText(text)], the same function in both variants.
    [measureElement] is [None] when the document has no
    [#measure-element], and otherwise the element's [offsetWidth] as a
    function of its text content; [textContent] is the text the element
    holds before the call, the result pairs the width with the text it
    holds after. *)
Definition calculateWidthOfText (measureElement : option (string -> Z))
    (text : string) (textContent : string) : Z * string :=
  match measureElement with
  | Some offsetWidth => (offsetWidth text, text)
  | None => (Z.of_nat (String.length text) * 8 + 20, textContent)
  end.

(** The variant that sets the badge but reserves no room for it (first
    document of [RecipientsDisplay.vue]). *)
Module Draft2.

Local Open Scope string_scope.

Fixpoint loop (measureElement : option (string -> Z)) (len : nat)
    (widthOfEllipses : Z) (es : list (nat * string))
    (totalAvailableContainerWidth : Z) (recipientsString : string)
    (badge : Z) (textContent : string) : string * Z * string :=
  match es with
  | [] => (recipientsString, badge, textContent)
  | (index, recipient) :: es' =>
      let isLastRecipient := (Z.of_nat index =? Z.of_nat len - 1)%Z in
      let recipientText :=
        if isLastRecipient then recipient else recipient ++ ", " in
      let '(widthOfRecipient, textContent1) :=
        calculateWidthOfText measureElement recipientText textContent in
      if (totalAvailableContainerWidth >?
            widthOfRecipient + (if isLastRecipient then 0 else widthOfEllipses))%Z
      then
        loop measureElement len widthOfEllipses es'
          (totalAvailableContainerWidth - widthOfRecipient)
          (recipientsString ++ recipientText) badge textContent1
      else
        let isFirstRecipient := (index =? 0)%nat in
        let numberOfHiddenRecipients := Z.of_nat len - Z.of_nat index in
        let badgeNumberValue :=
          if isFirstRecipient then numberOfHiddenRecipients - 1
          else numberOfHiddenRecipients in
        (recipientsString ++ (if isFirstRecipient then recipient else "..."),
         badgeNumberValue, textContent1)
  end.

(** [formatRecipientsForDisplay()]; [badgeWidth] is computed and never
    used. *)
Definition formatRecipientsForDisplay (measureElement : option (string -> Z))
    (c : Component) (textContent : string) : Component * string :=
  let containerWidth := clientWidthOr0 c in
  let leftBadgeContainerPadding := 5 in
  let rightBadgeContainerPadding := 5 in
  let badgeTextWidth := 0 in
  let badgeWidth :=
    leftBadgeContainerPadding + rightBadgeContainerPadding + badgeTextWidth in
  let totalAvailableContainerWidth := containerWidth in
  let recipientsString := "" in
  let '(widthOfEllipses, textContent1) :=
    calculateWidthOfText measureElement "..." textContent in
  (* badgeNumber.value = 0 *)
  let '(recipientsString', badge', textContent2) :=
    loop measureElement (List.length (recipients c)) widthOfEllipses
      (entries (recipients c)) totalAvailableContainerWidth recipientsString 0
      textContent1 in
  ({| recipients := recipients c; container := container c;
      displayedRecipients := recipientsString';
      badgeNumber := badge' |}, textContent2).

End Draft2.

(** The first variant ([unnamed/part_000]): an ellipsis whenever a
    recipient does not fit, and no badge number. *)
Module Draft1.

Local Open Scope string_scope.

Fixpoint loop (measureElement : option (string -> Z)) (len : nat)
    (widthOfEllipses : Z) (es : list (nat * string))
    (totalAvailableContainerWidth : Z) (recipientsString : string)
    (textContent : string) : string * string :=
  match es with
  | [] => (recipientsString, textContent)
  | (index, recipient) :: es' =>
      let recipientText :=
        if (Z.of_nat index =? Z.of_nat len - 1)%Z then recipient
        else recipient ++ ", " in
      let '(widthOfRecipient, textContent1) :=
        calculateWidthOfText measureElement recipientText textContent in
      if (totalAvailableContainerWidth >?
            widthOfRecipient
            + (if (Z.of_nat index =? Z.of_nat len - 1)%Z then 0
               else widthOfEllipses))%Z
      then
        loop measureElement len widthOfEllipses es'
          (totalAvailableContainerWidth - widthOfRecipient)
          (recipientsString ++ recipientText) textContent1
      else (recipientsString ++ "...", textContent1)
  end.

(** [formatRecipientsForDisplay()]; [badgeWidth] and [currentWidth] are
    never used, [badgeNumber] is never assigned. *)
Definition formatRecipientsForDisplay (measureElement : option (string -> Z))
    (c : Component) (textContent : string) : Component * string :=
  let leftContainerPadding := 0 in
  let rightContainerPadding := 0 in
  let containerWidth :=
    clientWidthOr0 c - leftContainerPadding - rightContainerPadding in
  let totalAvailableContainerWidth :=
    containerWidth - leftContainerPadding - rightContainerPadding in
  let recipientsString := "" in
  let '(widthOfEllipses, textContent1) :=
    calculateWidthOfText measureElement "..." textContent in
  let '(recipientsString', textContent2) :=
    loop measureElement (List.length (recipients c)) widthOfEllipses
      (entries (recipients c)) totalAvailableContainerWidth recipientsString
      textContent1 in
  ({| recipients := recipients c; container := container c;
      displayedRecipients := recipientsString';
      badgeNumber := badgeNumber c |}, textContent2).

End Draft1.

(** The width [calculateWidthOfText] returns, whatever the element
    holds. *)
Definition widthOfText (measureElement : option (string -> Z)) (text : string) : Z :=
  match measureElement with
  | Some offsetWidth => offsetWidth text
  | None => Z.of_nat (String.length text) * 8 + 20
  end.

(** The right-hand side of the fit test of the two earlier variants. *)
Definition requiredEarlier (measureElement : option (string -> Z)) (len : nat)
    (widthOfEllipses : Z) (index : nat) (recipient : string) : Z :=
  widthOfText measureElement (recipientTextAt len index recipient)
  + (if isLastAt len index then 0 else widthOfEllipses).

(** The index at which the loop of the two earlier variants breaks. *)
Fixpoint breakIndexEarlier (measureElement : option (string -> Z)) (len : nat)
    (widthOfEllipses : Z) (es : list (nat * string))
    (totalAvailableContainerWidth : Z) : option nat :=
  match es with
  | [] => None
  | (index, recipient) :: es' =>
      if (totalAvailableContainerWidth >?
            requiredEarlier measureElement len widthOfEllipses index recipient)%Z
      then breakIndexEarlier measureElement len widthOfEllipses es'
             (totalAvailableContainerWidth
              - widthOfText measureElement (recipientTextAt len index recipient))
      else Some index
  end.

(** Where a pass of the earlier variants stops. *)
Definition stopIndexEarlier (measureElement : option (string -> Z)) (w : Z)
    (rs : list string) : option nat :=
  breakIndexEarlier measureElement (List.length rs)
    (widthOfText measureElement "...") (entries rs) w.

(** What a pass of the first variant that stops at [stop] shows. *)
Definition renderedFirst (rs : list string) (stop : option nat) : string :=
  match stop with
  | None => Str.join rs
  | Some i => Str.join (firstn i rs ++ ["..."%string])
  end.

(** The text the measure element holds after a pass that stops at
    [stop]: the last text measured. *)
Definition lastMeasured (rs : list string) (stop : option nat) : string :=
  match stop with
  | None =>
      match rs with
      | [] => "..."%string
      | _ => last rs EmptyString
      end
  | Some i => recipientTextAt (List.length rs) i (nth i rs EmptyString)
  end.

(** ** The width left when an entry is tested *)



(** ** The template *)

(** [v-if="badgeNumber > 0"]: whether the badge is rendered. *)
Definition badgeShown (c : Component) : bool := badgeNumber c >? 0.

(** [+{{ badgeNumber }}]: what it reads. *)
Definition badgeText (c : Component) : string :=
  ("+" ++ Str.toString (badgeNumber c))%string.

(** ** Sample inputs *)

Definition tenRecipients : list string :=
  ["a"; "b"; "c"; "d"; "e"; "f"; "g"; "h"; "i"; "j"]%string.

(** The cache when the component is set up: both variables are null. *)
Definition initialCache : Stateful.Cache :=
  {| Stateful.reusableCanvas := None; Stateful.reusableContext := None |}.

(** A document whose elements are styled and whose canvas gives a 2d
    context that measures 7 pixels a character. *)
Definition documentWithContext : Stateful.Document :=
  {| Stateful.createElement :=
       {| Stateful.getContext :=
            Some {| Stateful.font := "10px sans-serif";
                    Stateful.measureText :=
                      fun _ text => Z.of_nat (String.length text) * 7 |} |};
     Stateful.getElementById :=
       fun _ => Some {| Stateful.fontSizeProperty := "16px";
                        Stateful.fontFamilyProperty := "Arial, sans-serif" |};
     Stateful.parseFloatText := fun _ => "16"%string |}.

(** A document whose elements are styled but whose canvas gives no 2d
    context. *)
Definition documentWithoutContext : Stateful.Document :=
  {| Stateful.createElement := {| Stateful.getContext := None |};
     Stateful.getElementById :=
       fun _ => Some {| Stateful.fontSizeProperty := "16px";
                        Stateful.fontFamilyProperty := "Arial, sans-serif" |};
     Stateful.parseFloatText := fun _ => "16"%string |}.

(** * Properties *)

(** ** Strings: appending and joining *)

Module StrFacts.

Import Str.

Local Open Scope string_scope.

Lemma append_assoc (a b c : string) : (a ++ b) ++ c = a ++ (b ++ c).
Proof. induction a as [|ch a IH]; simpl; [reflexivity | now rewrite IH]. Qed.

Lemma append_nil_r (a : string) : a ++ "" = a.
Proof. induction a as [|ch a IH]; simpl; [reflexivity | now rewrite IH]. Qed.

Lemma append_eq_nil (a b : string) : a ++ b = "" -> a = "" /\ b = "".
Proof. destruct a; simpl; [auto | discriminate]. Qed.

(** A join is the separated items before the last one, then the last. *)
Lemma join_cons (r : string) (l : list string) :
  l <> [] -> join (r :: l) = (r ++ ", ") ++ join l.
Proof.
  destruct l as [|r' l]; [congruence|]. intros _.
  unfold join. simpl. now rewrite append_assoc.
Qed.

Lemma join_snoc (l : list string) (x : string) :
  join (l ++ [x]) = separated l ++ x.
Proof.
  induction l as [|r l IH]; [reflexivity|].
  change ((r :: l) ++ [x])%list with (r :: (l ++ [x]))%list.
  rewrite join_cons by (destruct l; discriminate).
  simpl. now rewrite IH, !append_assoc.
Qed.

End StrFacts.

(** ** The measurer *)

(** Every function of the text and the element is the measurer of some
    host: what holds for every host holds for every measurer. *)
Lemma hostOf_measures (m : string -> string -> Z) (text elementID : string) :
  calculateWidthOfTextForElement (hostOf m) text elementID = m text elementID.
Proof. reflexivity. Qed.

(** Without a rendering surface the width is the fallback formula. *)
Lemma headless_measures (text elementID : string) :
  calculateWidthOfTextForElement headless text elementID
  = Z.of_nat (String.length text) * 8 + 20.
Proof. reflexivity. Qed.

(** ** The loop and its named quantities *)

Section LoopFacts.

Variable host : Host.

Local Open Scope string_scope.

Lemma loop_cons len ell index recipient es avail str b :
  loop host len ell ((index, recipient) :: es) avail str b =
  if (avail >? requiredAt host len ell index recipient)%Z
  then loop host len ell es (avail - widthOfRecipientAt host len index recipient)
         (str ++ recipientTextAt len index recipient) b
  else (str ++ (if (index =? 0)%nat then recipient else "..."),
        badgeNumberValueAt len index).
Proof. reflexivity. Qed.

Lemma entries_from_cons (k : nat) (r : string) (suf : list string) :
  combine (seq k (List.length (r :: suf))) (r :: suf) =
  (k, r) :: combine (seq (S k) (List.length suf)) suf.
Proof. reflexivity. Qed.

Lemma isLastAt_true len index : isLastAt len index = true <-> S index = len.
Proof. unfold isLastAt. rewrite Z.eqb_eq. lia. Qed.

Lemma isLastAt_head len k (r : string) (suf : list string) :
  len = (k + List.length (r :: suf))%nat ->
  isLastAt len k = match suf with [] => true | _ => false end.
Proof.
  intros ->. destruct suf as [|r' suf]; simpl List.length.
  - apply isLastAt_true. lia.
  - apply not_true_is_false. rewrite isLastAt_true. lia.
Qed.

Lemma recipientTextAt_head len k (r : string) (suf : list string) :
  len = (k + List.length (r :: suf))%nat ->
  recipientTextAt len k r = match suf with [] => r | _ => r ++ ", " end.
Proof.
  intros H. unfold recipientTextAt. rewrite (isLastAt_head _ _ _ _ H).
  now destruct suf.
Qed.

(** The loop breaks inside the range of the indices it visits. *)
Lemma breakIndex_range len ell suf : forall k avail i,
  breakIndex host len ell (combine (seq k (List.length suf)) suf) avail = Some i ->
  (k <= i < k + List.length suf)%nat.
Proof.
  induction suf as [|r suf IH]; intros k avail i; [discriminate|].
  rewrite entries_from_cons. simpl breakIndex.
  destruct (avail >? _)%Z.
  - intros H. apply IH in H. simpl List.length. lia.
  - intros [= <-]. simpl List.length. lia.
Qed.

(** What the loop leaves, from where it stops. *)
Lemma loop_breakIndex len ell suf : forall k avail str b,
  len = (k + List.length suf)%nat ->
  loop host len ell (combine (seq k (List.length suf)) suf) avail str b =
  match breakIndex host len ell (combine (seq k (List.length suf)) suf) avail with
  | None => (str ++ Str.join suf, b)
  | Some i =>
      (str ++ Str.separated (firstn (i - k) suf)
           ++ (if (i =? 0)%nat then hd "" suf else "..."),
       badgeNumberValueAt len i)
  end.
Proof.
  induction suf as [|r suf IH]; intros k avail str b Hlen.
  - simpl. now rewrite StrFacts.append_nil_r.
  - rewrite entries_from_cons, loop_cons. simpl breakIndex.
    rewrite (recipientTextAt_head _ _ _ _ Hlen).
    destruct (avail >? _)%Z.
    + rewrite IH by (simpl in Hlen; lia).
      destruct (breakIndex host _ ell _ _) as [i|] eqn:Hb.
      * apply breakIndex_range in Hb.
        replace (i - k)%nat with (S (i - S k)) by lia.
        destruct i as [|i]; [lia|].
        simpl firstn. simpl Str.separated. simpl Nat.eqb.
        destruct suf as [|r' suf]; [simpl in Hb; lia|].
        now rewrite !StrFacts.append_assoc.
      * destruct suf as [|r' suf].
        -- now rewrite StrFacts.append_nil_r.
        -- rewrite (StrFacts.join_cons r (r' :: suf)) by discriminate.
           now rewrite !StrFacts.append_assoc.
    + rewrite Nat.sub_diag. simpl firstn. simpl Str.separated. simpl hd.
      reflexivity.
Qed.

End LoopFacts.

(** ** One pass, from where it stops *)

Section PassFacts.

Variable host : Host.

Local Open Scope string_scope.

Lemma clientWidthOr0_some (c : Component) (w : Z) :
  container c = Some w -> clientWidthOr0 c = w.
Proof.
  unfold clientWidthOr0. intros ->.
  destruct (w =? 0)%Z eqn:E; [apply Z.eqb_eq in E; congruence | reflexivity].
Qed.

Lemma stopIndex_range w rs i :
  stopIndex host w rs = Some i -> (i < List.length rs)%nat.
Proof.
  unfold stopIndex, entries. intros H. apply breakIndex_range in H. lia.
Qed.

(** The pass writes the two output refs, from the recipients, the
    container width and the measurer only, and nothing else. *)
Lemma format_stopIndex (c : Component) :
  formatRecipientsForDisplay host c =
  let stop := stopIndex host (clientWidthOr0 c) (recipients c) in
  {| recipients := recipients c;
     container := container c;
     displayedRecipients := rendered (recipients c) stop;
     badgeNumber := hiddenAt (List.length (recipients c)) stop |}.
Proof.
  unfold formatRecipientsForDisplay, stopIndex, entries. cbn [recipients container badgeNumber].
  fold (widthOfEllipses host).
  rewrite (loop_breakIndex host (List.length (recipients c)) (widthOfEllipses host)
             (recipients c) 0) by reflexivity.
  destruct (breakIndex host _ _ _ _) as [[|i]|]; cbn [rendered hiddenAt].
  - reflexivity.
  - rewrite Nat.sub_0_r. cbn [Nat.eqb]. rewrite StrFacts.join_snoc. reflexivity.
  - reflexivity.
Qed.

Lemma fit_stopIndex (w : Z) (rs : list string) :
  fit host w rs =
  (rendered rs (stopIndex host w rs),
   hiddenAt (List.length rs) (stopIndex host w rs)).
Proof.
  unfold fit. rewrite format_stopIndex.
  rewrite (clientWidthOr0_some (mount rs (Some w)) w) by reflexivity.
  reflexivity.
Qed.

(** A wider container lets the loop run at least as far. *)
Lemma breakIndex_mono len ell suf : forall k a1 a2,
  a2 <= a1 ->
  match breakIndex host len ell (combine (seq k (List.length suf)) suf) a1,
        breakIndex host len ell (combine (seq k (List.length suf)) suf) a2 with
  | Some i, Some j => (j <= i)%nat
  | Some _, None => False
  | None, _ => True
  end.
Proof.
  induction suf as [|r suf IH]; intros k a1 a2 Hle; [exact I|].
  rewrite entries_from_cons. simpl breakIndex.
  destruct (a2 >? _)%Z eqn:E2.
  - assert (E1 : (a1 >? requiredAt host len ell k r)%Z = true)
      by (apply Z.gtb_lt; apply Z.gtb_lt in E2; lia).
    rewrite E1. apply IH. lia.
  - destruct (a1 >? _)%Z.
    + destruct (breakIndex host len ell _ _) as [i|] eqn:Hb; [|exact I].
      apply breakIndex_range in Hb. lia.
    + lia.
Qed.

Lemma hiddenAt_range len stop :
  (forall i, stop = Some i -> (i < len)%nat) ->
  0 <= hiddenAt len stop <= Z.of_nat len.
Proof.
  destruct stop as [i|]; cbn [hiddenAt]; intros H; [|lia].
  specialize (H i eq_refl). unfold badgeNumberValueAt.
  destruct i as [|i]; cbn [Nat.eqb]; lia.
Qed.

Lemma hiddenAt_antitone len i j :
  (j <= i < len)%nat -> hiddenAt len (Some i) <= hiddenAt len (Some j).
Proof.
  intros H. cbn [hiddenAt]. unfold badgeNumberValueAt.
  destruct i as [|i], j as [|j]; cbn [Nat.eqb]; lia.
Qed.

Lemma shownCount_plus_hiddenAt len stop :
  (forall i, stop = Some i -> (i < len)%nat) ->
  Z.of_nat (shownCount len stop) + hiddenAt len stop = Z.of_nat len.
Proof.
  destruct stop as [[|i]|]; cbn [shownCount hiddenAt]; intros H;
    unfold badgeNumberValueAt; cbn [Nat.eqb]; lia.
Qed.

End PassFacts.

(** ** Properties of the pass *)

Local Open Scope string_scope.

(** What is rendered of a non-empty list starts with its first
    recipient, wherever the pass stops. *)
Lemma rendered_starts_with_first (r : string) (rest : list string) (stop : option nat) :
  exists tail : string, rendered (r :: rest) stop = r ++ tail.
Proof.
  destruct stop as [[|i]|]; cbn [rendered hd].
  - exists "". now rewrite StrFacts.append_nil_r.
  - cbn [firstn]. change ((r :: firstn i rest) ++ ["..."])%list
      with (r :: (firstn i rest ++ ["..."]))%list.
    rewrite StrFacts.join_cons by (destruct (firstn i rest); discriminate).
    rewrite StrFacts.append_assoc. eauto.
  - destruct rest as [|r' rest].
    + exists "". cbn. now rewrite StrFacts.append_nil_r.
    + rewrite StrFacts.join_cons by discriminate. rewrite StrFacts.append_assoc. eauto.
Qed.

(** What is rendered is the join of the recipients counted as shown,
    continued by the ellipsis or not. *)
Lemma rendered_shownCount (rs : list string) (stop : option nat) :
  (forall i, stop = Some i -> (i < List.length rs)%nat) ->
  let k := shownCount (List.length rs) stop in
  rendered rs stop = Str.join (firstn k rs)
  \/ rendered rs stop = Str.join (firstn k rs ++ ["..."]).
Proof.
  intros Hr. destruct stop as [[|i]|]; cbn [rendered shownCount].
  - left. specialize (Hr 0%nat eq_refl).
    destruct rs as [|r rest]; [simpl in Hr; lia|]. reflexivity.
  - now right.
  - left. now rewrite firstn_all.
Qed.

(** C5 (first-item guarantee), as the code has it.  For every non-empty
    recipient list and every container (mounted or not, of zero, negative
    or positive width), the first identifier is appended in full, so
    [displayedRecipients] starts with it; when the first identifier is not
    the empty string, [displayedRecipients] is not the empty string. *)
Theorem first_item_guarantee (h : Host) (c : Component) (r : string) (rest : list string) :
  recipients c = r :: rest ->
  (exists tail : string,
     displayedRecipients (formatRecipientsForDisplay h c) = r ++ tail)
  /\ (r <> "" -> displayedRecipients (formatRecipientsForDisplay h c) <> "").
Proof.
  intros Hrs. rewrite format_stopIndex. cbn [displayedRecipients]. rewrite Hrs.
  destruct (rendered_starts_with_first r rest
              (stopIndex h (clientWidthOr0 c) (r :: rest))) as [tail Ht].
  split; [eauto|].
  intros Hr E. rewrite Ht in E. apply StrFacts.append_eq_nil in E. tauto.
Qed.

Lemma first_item_guarantee_witness :
  displayedRecipients
    (formatRecipientsForDisplay headless (mount ["a"; "b"] (Some (-5)))) <> "".
Proof.
  apply (proj2 (first_item_guarantee headless (mount ["a"; "b"] (Some (-5)))
                  "a" ["b"] eq_refl)).
  discriminate.
Defined.

(** C5 as stated fails: an empty first recipient is appended as it is, so
    the list of [""] and ["b"] in a container of width 0 leaves an empty
    text (and hides one recipient). *)
Lemma first_item_guarantee_counterexample :
  ~ (recipients (mount [""; "b"] (Some 0)) <> [] ->
     displayedRecipients
       (formatRecipientsForDisplay headless (mount [""; "b"] (Some 0))) <> "").
Proof.
  intros H. apply H; [discriminate | reflexivity].
Qed.

(** C6 (monotonicity).  For a fixed recipient list and measurer, the
    hidden count is antitone in the container width: a narrower container
    never hides fewer recipients. *)
Theorem hiddenCount_antitone (h : Host) (rs : list string) (w1 w2 : Z) :
  w2 < w1 -> snd (fit h w1 rs) <= snd (fit h w2 rs).
Proof.
  intros Hlt. rewrite !fit_stopIndex. cbn [snd].
  pose proof (breakIndex_mono h (List.length rs) (widthOfEllipses h) rs 0 w1 w2
                ltac:(lia)) as Hm.
  fold (entries rs) in Hm. fold (stopIndex h w1 rs) in Hm. fold (stopIndex h w2 rs) in Hm.
  destruct (stopIndex h w1 rs) as [i|] eqn:E1.
  - destruct (stopIndex h w2 rs) as [j|] eqn:E2; [|contradiction].
    apply hiddenAt_antitone. apply stopIndex_range in E1. lia.
  - apply (hiddenAt_range (List.length rs) (stopIndex h w2 rs)).
    intros i. apply stopIndex_range.
Qed.

Lemma hiddenCount_antitone_witness :
  snd (fit headless 200 ["a"; "b"; "c"]) <= snd (fit headless 100 ["a"; "b"; "c"]).
Proof.
  apply (hiddenCount_antitone headless ["a"; "b"; "c"] 200 100). lia.
Defined.

(** C7 (whole-identifier invariant).  [displayText] is the comma-space
    join of all the recipients, or the comma-space join of a non-empty
    proper prefix of them continued by ["..."], or the first identifier
    alone: every identifier in it is a whole source entry. *)
Theorem whole_identifiers (h : Host) (w : Z) (rs : list string) :
  fst (fit h w rs) = Str.join rs
  \/ (exists k : nat, (1 <= k < List.length rs)%nat
        /\ fst (fit h w rs) = Str.join (firstn k rs ++ ["..."]))
  \/ (exists (r : string) (rest : list string),
        rs = r :: rest /\ fst (fit h w rs) = r).
Proof.
  rewrite fit_stopIndex. cbn [fst].
  destruct (stopIndex h w rs) as [[|i]|] eqn:E; cbn [rendered].
  - right. right. apply stopIndex_range in E.
    destruct rs as [|r rest]; [simpl in E; lia|]. now exists r, rest.
  - right. left. exists (S i). apply stopIndex_range in E. split; [lia|reflexivity].
  - now left.
Qed.

(** C8 (empty list).  For the empty recipient list, whatever the
    container, the measurer and the previous values of the output refs,
    the pass ends normally: it returns the component with
    [displayedRecipients = ""] and [badgeNumber = 0], the prop and the
    container as they were. *)
Theorem empty_list (h : Host) (c : Component) :
  recipients c = [] ->
  formatRecipientsForDisplay h c
  = {| recipients := []; container := container c;
       displayedRecipients := ""; badgeNumber := 0 |}.
Proof.
  intros Hrs. unfold formatRecipientsForDisplay.
  cbn [recipients container badgeNumber]. rewrite Hrs. reflexivity.
Qed.

Lemma empty_list_witness :
  formatRecipientsForDisplay headless
    {| recipients := []; container := Some (-3);
       displayedRecipients := "a, ..."; badgeNumber := 2 |}
  = {| recipients := []; container := Some (-3);
       displayedRecipients := ""; badgeNumber := 0 |}.
Proof.
  apply (empty_list headless
           {| recipients := []; container := Some (-3);
              displayedRecipients := "a, ..."; badgeNumber := 2 |}).
  reflexivity.
Defined.

(** C10 (shown plus hidden).  With [k] the number of recipients the pass
    appended verbatim, [displayText] is the join of the first [k]
    recipients, continued by ["..."] or not, and [k] plus the hidden count
    is the length of the list; for a non-empty list at least one recipient
    is shown and at most [N - 1] are counted as hidden. *)
Theorem shown_plus_hidden (h : Host) (w : Z) (rs : list string) :
  let k := shownCount (List.length rs) (stopIndex h w rs) in
  (fst (fit h w rs) = Str.join (firstn k rs)
   \/ fst (fit h w rs) = Str.join (firstn k rs ++ ["..."]))
  /\ Z.of_nat k + snd (fit h w rs) = Z.of_nat (List.length rs)
  /\ (rs <> [] ->
      (1 <= k <= List.length rs)%nat
      /\ 0 <= snd (fit h w rs) <= Z.of_nat (List.length rs) - 1).
Proof.
  intros k. subst k. rewrite fit_stopIndex. cbn [fst snd].
  pose proof (stopIndex_range h w rs) as Hr.
  pose proof (shownCount_plus_hiddenAt (List.length rs) (stopIndex h w rs) Hr) as Hsum.
  pose proof (hiddenAt_range (List.length rs) (stopIndex h w rs) Hr) as Hh.
  split; [|split; [exact Hsum|]].
  - now apply rendered_shownCount.
  - intros Hne.
    assert (0 < List.length rs)%nat by (destruct rs; [congruence | simpl; lia]).
    destruct (stopIndex h w rs) as [[|i]|]; cbn [shownCount] in *.
    + lia.
    + specialize (Hr (S i) eq_refl). lia.
    + lia.
Qed.

Lemma shown_plus_hidden_witness :
  (1 <= shownCount 3 (stopIndex headless 160 ["a"; "b"; "c"]) <= 3)%nat
  /\ 0 <= snd (fit headless 160 ["a"; "b"; "c"]) <= 2.
Proof.
  apply (proj2 (proj2 (shown_plus_hidden headless 160 ["a"; "b"; "c"]))).
  discriminate.
Defined.

(** *** Full fit *)

(** C3 at its failing input.  Two recipients, ["a"] and ["b"], with the
    fallback widths: ["a, "] takes 44 pixels and ["b"] 28, 72 together,
    and the whole text ["a, b"] 52.  In a container of 100 pixels the
    block comment of the function has them displayed in full; the test at
    the first recipient asks for more than 44 + 60 + 45 = 149 pixels, so
    the pass shows ["a"] alone and hides one recipient. *)
Theorem full_fit_refused_with_room :
  totalWidth headless ["a"; "b"] = 72
  /\ calculateWidthOfTextForElement headless (Str.join ["a"; "b"])
       "recipients-text-measure-element" = 52
  /\ requiredAt headless 2 (widthOfEllipses headless) 0 "a" = 149
  /\ fit headless 100 ["a"; "b"] = ("a", 1)
  /\ fit headless 100 ["a"; "b"] <> (Str.join ["a"; "b"], 0).
Proof. repeat split; vm_compute; (reflexivity || discriminate). Qed.

(** *** Badge consistency *)

(** C4 (badge consistency), as the code has it.  With [k] the number of
    recipients the pass appended verbatim: the hidden count is positive if
    and only if [k < N], and it is 0 if and only if every recipient was
    rendered ([k = N]); when it is positive the list has at least two
    recipients and [displayText] ends with ["..."] or is the first
    identifier alone; when it is 0, [displayText] is the comma-space join
    of the whole list. *)
Theorem badge_consistency (h : Host) (w : Z) (rs : list string) :
  let k := shownCount (List.length rs) (stopIndex h w rs) in
  (fst (fit h w rs) = Str.join (firstn k rs)
   \/ fst (fit h w rs) = Str.join (firstn k rs ++ ["..."]))
  /\ (0 < snd (fit h w rs) <-> (k < List.length rs)%nat)
  /\ (snd (fit h w rs) = 0 <-> k = List.length rs)
  /\ (0 < snd (fit h w rs) ->
      (2 <= List.length rs)%nat
      /\ (EndsWith (fst (fit h w rs)) "..." \/ fst (fit h w rs) = hd "" rs))
  /\ (snd (fit h w rs) = 0 -> fst (fit h w rs) = Str.join rs).
Proof.
  intros k. subst k. rewrite fit_stopIndex. cbn [fst snd].
  pose proof (stopIndex_range h w rs) as Hr.
  split; [now apply rendered_shownCount|].
  destruct (stopIndex h w rs) as [[|i]|];
    cbn [rendered shownCount hiddenAt]; unfold badgeNumberValueAt; cbn [Nat.eqb].
  - specialize (Hr 0%nat eq_refl).
    repeat split; try lia.
    + now right.
    + intros H0. destruct rs as [|r [|r' rest]]; [simpl in Hr; lia | reflexivity |].
      simpl List.length in H0. lia.
  - specialize (Hr (S i) eq_refl).
    repeat split; try lia.
    left. exists (Str.separated (firstn (S i) rs)). apply StrFacts.join_snoc.
  - repeat split; try lia; reflexivity.
Qed.

Lemma badge_consistency_witness :
  (2 <= List.length ["a"; "b"; "c"])%nat
  /\ (EndsWith (fst (fit headless 160 ["a"; "b"; "c"])) "..."
      \/ fst (fit headless 160 ["a"; "b"; "c"]) = hd "" ["a"; "b"; "c"]).
Proof.
  apply (proj1 (proj2 (proj2 (proj2 (badge_consistency headless 160 ["a"; "b"; "c"]))))).
  vm_compute. reflexivity.
Defined.

(** C4 as stated fails: a lone recipient in a container too narrow for it
    is rendered alone, so [displayText] consists solely of the first
    identifier, and yet the hidden count is 0. *)
Lemma badge_consistency_counterexample :
  ~ (0 < snd (fit headless 10 ["averylongaddress@example.com"]) <->
     EndsWith (fst (fit headless 10 ["averylongaddress@example.com"])) "..."
     \/ fst (fit headless 10 ["averylongaddress@example.com"])
        = "averylongaddress@example.com").
Proof.
  intros [_ H].
  assert (Hpos : 0 < snd (fit headless 10 ["averylongaddress@example.com"]))
    by (apply H; right; reflexivity).
  vm_compute in Hpos. discriminate Hpos.
Qed.

(** *** The pass and the reference algorithm *)

Section Refinement.

Variable host : Host.

(** The badge number a failure would produce is the specification's
    candidate hidden count. *)
Lemma badgeNumberValueAt_candidate len index :
  badgeNumberValueAt len index = Reference.candidateHiddenCount len index.
Proof. reflexivity. Qed.

(** Past the first entry the width reserved for the badge is the
    specification's. *)
Lemma badgeReservationAt_after_first len index :
  index <> 0%nat ->
  badgeReservationAt host len index = referenceBadgeReserved host len index.
Proof. destruct index as [|index]; [congruence | reflexivity]. Qed.

(** So is it at the only entry of a list of one. *)
Lemma badgeReservationAt_single index :
  badgeReservationAt host 1 index = referenceBadgeReserved host 1 index.
Proof.
  destruct index as [|index]; [reflexivity|].
  apply badgeReservationAt_after_first. discriminate.
Qed.

(** The loop is the specification's scan wherever the two reserve the
    same width for the badge. *)
Lemma scan_loop (rs : list string) suf : forall pre avail out,
  rs = (pre ++ suf)%list ->
  (forall i, (List.length pre <= i)%nat ->
     badgeReservationAt host (List.length rs) i
     = referenceBadgeReserved host (List.length rs) i) ->
  Reference.scan (calculateWidthOfTextForElement host)
    "recipients-text-measure-element" "badge-measure-element" 5 2 2
    (List.length rs) rs (seq (List.length pre) (List.length suf)) avail out
  = loop host (List.length rs) (widthOfEllipses host)
      (combine (seq (List.length pre) (List.length suf)) suf) avail out 0.
Proof.
  induction suf as [|r suf IH]; intros pre avail out Hrs Hbadge; [reflexivity|].
  rewrite entries_from_cons, loop_cons.
  cbn [List.length seq Reference.scan].
  assert (Hnth : nth (List.length pre) rs "" = r) by (rewrite Hrs; apply nth_middle).
  rewrite Hnth.
  fold (referenceBadgeReserved host (List.length rs) (List.length pre)).
  rewrite <- (Hbadge (List.length pre)) by lia.
  unfold requiredAt, widthOfRecipientAt, recipientTextAt, isLastAt.
  fold (widthOfEllipses host).
  assert (Hnext : S (List.length pre) = List.length (pre ++ [r])%list)
    by (rewrite length_app; simpl; lia).
  destruct (avail >? _)%Z.
  - rewrite Hnext. apply IH.
    + now rewrite <- app_assoc.
    + intros i Hi. apply Hbadge. rewrite <- Hnext in Hi. lia.
  - reflexivity.
Qed.

(** The pass computes what the reference algorithm computes whenever, at
    the first entry, it reserves the width the reference reserves. *)
Lemma fit_reference (w : Z) (rs : list string) :
  badgeReservationAt host (List.length rs) 0
    = referenceBadgeReserved host (List.length rs) 0 ->
  fit host w rs = referenceFit host w rs.
Proof.
  intros H0. unfold fit, referenceFit, Reference.fit, formatRecipientsForDisplay.
  cbn [recipients container badgeNumber mount].
  rewrite (clientWidthOr0_some (mount rs (Some w)) w) by reflexivity.
  fold (widthOfEllipses host). unfold entries.
  assert (Hbadge : forall i, (List.length (@nil string) <= i)%nat ->
            badgeReservationAt host (List.length rs) i
            = referenceBadgeReserved host (List.length rs) i).
  { intros [|i] _; [exact H0 | now apply badgeReservationAt_after_first]. }
  pose proof (scan_loop rs rs [] w "" eq_refl Hbadge) as Hscan.
  cbn [List.length] in Hscan. rewrite Hscan.
  now destruct (loop host _ _ _ _ _ _).
Qed.

End Refinement.

(** The pass refines the reference algorithm on every list of at most one
    recipient, and on every longer list for which the measurer gives the
    labels ["+N"] and ["+(N-1)"] the same width. *)
Theorem fit_reference_same_label_width (h : Host) (w : Z) (rs : list string) :
  (List.length rs <= 1)%nat
  \/ calculateWidthOfTextForElement h
       ("+" ++ Str.toString (Z.of_nat (List.length rs))) "badge-measure-element"
     = calculateWidthOfTextForElement h
         ("+" ++ Str.toString (Z.of_nat (List.length rs) - 1)) "badge-measure-element" ->
  fit h w rs = referenceFit h w rs.
Proof.
  intros H. apply fit_reference.
  destruct H as [H | H].
  - destruct rs as [|r [|r' rest]]; [reflexivity | reflexivity | simpl in H; lia].
  - unfold badgeReservationAt, referenceBadgeReserved, Reference.badgeReserved,
      widthOfBadgeAt, badgeLabelAt.
    unfold Reference.candidateHiddenCount, badgeNumberValueAt. cbn [Nat.eqb].
    change (Z.of_nat 0) with 0. rewrite Z.sub_0_r. now rewrite H.
Qed.

Lemma fit_reference_same_label_width_witness :
  fit headless 100 ["a"; "b"; "c"] = referenceFit headless 100 ["a"; "b"; "c"].
Proof.
  apply (fit_reference_same_label_width headless 100 ["a"; "b"; "c"]).
  right. vm_compute. reflexivity.
Defined.

(** C2 at its failing input.  At the first of ten recipients a failure
    hides nine, yet the label measured for the badge is ["+10"]: with the
    fallback formula 53 pixels are reserved where the label ["+9"] of the
    claim takes 45. *)
Theorem badge_label_first_of_ten :
  badgeNumberValueAt 10 0 = 9
  /\ badgeLabelAt 10 0 = "+10"
  /\ badgeReservationAt headless 10 0 = 53
  /\ referenceBadgeReserved headless 10 0 = 45.
Proof. repeat split; vm_compute; reflexivity. Qed.

(** C1 at its failing input.  Ten one-letter recipients in a container of
    155 pixels: the pass stops at the first recipient and shows it alone,
    the reference algorithm accepts it and stops at the second. *)
Theorem fit_first_of_ten :
  fit headless 155 tenRecipients = ("a", 9)
  /\ referenceFit headless 155 tenRecipients = ("a, ...", 9)
  /\ fit headless 155 tenRecipients <> referenceFit headless 155 tenRecipients.
Proof. repeat split; vm_compute; (reflexivity || discriminate). Qed.

(** * The code around the pass *)

(** ** The measurer and its canvas *)

Section StatefulFacts.

Variable d : Stateful.Document.

Local Open Scope string_scope.

Lemma initializeCanvasIfNeeded_again (k : Stateful.Cache) :
  Stateful.initializeCanvasIfNeeded d (Stateful.initializeCanvasIfNeeded d k)
  = Stateful.initializeCanvasIfNeeded d k.
Proof.
  unfold Stateful.initializeCanvasIfNeeded. cbn [Stateful.reusableCanvas Stateful.reusableContext].
  destruct (Stateful.reusableContext k) as [cx|]; [reflexivity|].
  destruct (Stateful.reusableCanvas k) as [cv|];
    now destruct (Stateful.getContext _).
Qed.

(** One measurement, seen from the host of the cache it starts from. *)
Lemma calculateWidthOfTextForElement_host (text elementID : string) (k : Stateful.Cache) :
  Stateful.calculateWidthOfTextForElement d text elementID k
  = (Measurer.calculateWidthOfTextForElement (Stateful.hostOfCache d k) text elementID,
     snd (Stateful.calculateWidthOfTextForElement d text elementID k))
  /\ Stateful.hostOfCache d (snd (Stateful.calculateWidthOfTextForElement d text elementID k))
     = Stateful.hostOfCache d k.
Proof.
  unfold Stateful.calculateWidthOfTextForElement,
    Measurer.calculateWidthOfTextForElement, Stateful.hostOfCache.
  cbn [elementFont context2d].
  destruct (Stateful.reusableContext (Stateful.initializeCanvasIfNeeded d k)) as [cx|] eqn:Ecx;
    destruct (Stateful.getElementById d elementID) as [el|]; cbn [option_map snd fst];
    (split; [try reflexivity|]).
  all: try (rewrite initializeCanvasIfNeeded_again, Ecx; reflexivity).
  all: reflexivity.
Qed.

Lemma calculateWidthOfTextForElement_canvas (text elementID : string) (k : Stateful.Cache) :
  Stateful.reusableCanvas (snd (Stateful.calculateWidthOfTextForElement d text elementID k))
  <> None.
Proof.
  unfold Stateful.calculateWidthOfTextForElement.
  destruct (Stateful.reusableContext (Stateful.initializeCanvasIfNeeded d k)) as [cx|];
    destruct (Stateful.getElementById d elementID) as [el|]; cbn [snd Stateful.reusableCanvas];
    discriminate.
Qed.

(** The loop with the canvas is the loop over the host of the cache. *)
Lemma stateful_loop_host len ell es : forall avail str badge k,
  fst (Stateful.loop d len ell es avail str badge k)
  = loop (Stateful.hostOfCache d k) len ell es avail str badge
  /\ Stateful.hostOfCache d (snd (Stateful.loop d len ell es avail str badge k))
     = Stateful.hostOfCache d k.
Proof.
  induction es as [|[index recipient] es IH]; intros avail str badge k.
  - split; reflexivity.
  - cbn [Stateful.loop loop]. unfold Stateful.bind.
    destruct (calculateWidthOfTextForElement_host
                ("+" ++ Str.toString (Z.of_nat len - Z.of_nat index))
                "badge-measure-element" k) as [E1 H1].
    rewrite E1.
    set (k1 := snd (Stateful.calculateWidthOfTextForElement d
                      ("+" ++ Str.toString (Z.of_nat len - Z.of_nat index))
                      "badge-measure-element" k)) in *.
    set (recipientText :=
           if (Z.of_nat index =? Z.of_nat len - 1)%Z then recipient
           else recipient ++ ", ").
    destruct (calculateWidthOfTextForElement_host recipientText
                "recipients-text-measure-element" k1) as [E2 H2].
    rewrite E2.
    set (k2 := snd (Stateful.calculateWidthOfTextForElement d recipientText
                      "recipients-text-measure-element" k1)) in *.
    rewrite H1 in *.
    destruct (avail >? _)%Z.
    + destruct (IH (avail - Measurer.calculateWidthOfTextForElement
                               (Stateful.hostOfCache d k) recipientText
                               "recipients-text-measure-element")
                  (str ++ recipientText) badge k2) as [E3 H3].
      rewrite H2 in *. split; assumption.
    + cbn [Stateful.ret fst snd]. split; [reflexivity | assumption].
Qed.

(** The loop leaves a canvas in a cache that had one. *)
Lemma stateful_loop_canvas len ell es : forall avail str badge k,
  Stateful.reusableCanvas k <> None ->
  Stateful.reusableCanvas (snd (Stateful.loop d len ell es avail str badge k)) <> None.
Proof.
  induction es as [|[index recipient] es IH]; intros avail str badge k Hk.
  - exact Hk.
  - cbn [Stateful.loop]. unfold Stateful.bind.
    destruct (Stateful.calculateWidthOfTextForElement d
                ("+" ++ Str.toString (Z.of_nat len - Z.of_nat index))
                "badge-measure-element" k) as [widthOfBadgeText k1].
    pose proof (calculateWidthOfTextForElement_canvas
                  (if (Z.of_nat index =? Z.of_nat len - 1)%Z then recipient
                   else recipient ++ ", ")
                  "recipients-text-measure-element" k1) as Hc.
    destruct (Stateful.calculateWidthOfTextForElement d _
                "recipients-text-measure-element" k1) as [widthOfRecipient k2].
    cbn [snd] in Hc.
    destruct (avail >? _)%Z; [now apply IH | exact Hc].
Qed.

End StatefulFacts.

(** [firstField] splits at the first comma-space. *)
Lemma firstField_prefix (s : string) :
  exists rest : string,
    s = (Stateful.firstField s ++ rest)%string
    /\ (rest = EmptyString \/ prefix ", " rest = true).
Proof.
  induction s as [|ch s IH].
  - exists EmptyString. split; [reflexivity | now left].
  - cbn [Stateful.firstField].
    destruct (prefix ", " (String ch s)) eqn:E.
    + exists (String ch s). split; [reflexivity | now right].
    + destruct IH as [rest [Hs Hrest]]. exists rest. split; [|exact Hrest].
      cbn [append]. now rewrite <- Hs.
Qed.

Lemma firstField_head (s : string) (ch : ascii) (t : string) :
  Stateful.firstField s = String ch t -> exists s', s = String ch s'.
Proof.
  destruct s as [|c s]; cbn [Stateful.firstField]; [discriminate|].
  destruct (prefix ", " (String c s)); [discriminate|].
  intros [= -> _]. eauto.
Qed.

Lemma firstField_no_separator (s p q : string) :
  Stateful.firstField s <> (p ++ ", " ++ q)%string.
Proof.
  revert p. induction s as [|ch s IH]; intros p.
  - cbn. destruct p; discriminate.
  - cbn [Stateful.firstField].
    destruct (prefix ", " (String ch s)) eqn:E.
    + destruct p; discriminate.
    + destruct p as [|c p]; cbn [append].
      * intros [= -> H]. apply firstField_head in H. destruct H as [s' ->].
        cbn in E. destruct s'; discriminate E.
      * intros [= _ H]. now apply IH in H.
Qed.

(** ** Where the loop stops, in closed form *)

Section StopFacts.

Variable host : Host.

Local Open Scope string_scope.






End StopFacts.

(** X1.  [initializeCanvasIfNeeded] creates the canvas at most once and
    never replaces what the cache holds: a canvas or a context already
    there is kept, a canvas is there afterwards, and a second call
    changes nothing. *)
Theorem canvas_cache_kept (d : Stateful.Document) (k : Stateful.Cache) :
  Stateful.initializeCanvasIfNeeded d (Stateful.initializeCanvasIfNeeded d k)
  = Stateful.initializeCanvasIfNeeded d k
  /\ Stateful.reusableCanvas (Stateful.initializeCanvasIfNeeded d k) <> None
  /\ (forall canvas, Stateful.reusableCanvas k = Some canvas ->
        Stateful.reusableCanvas (Stateful.initializeCanvasIfNeeded d k) = Some canvas)
  /\ (forall context, Stateful.reusableContext k = Some context ->
        Stateful.reusableContext (Stateful.initializeCanvasIfNeeded d k) = Some context)
  /\ (Stateful.reusableCanvas k = None ->
        Stateful.reusableCanvas (Stateful.initializeCanvasIfNeeded d k)
        = Some (Stateful.createElement d)).
Proof.
  split; [apply initializeCanvasIfNeeded_again|].
  unfold Stateful.initializeCanvasIfNeeded.
  cbn [Stateful.reusableCanvas Stateful.reusableContext].
  repeat split.
  - discriminate.
  - intros canvas ->. reflexivity.
  - intros context ->. reflexivity.
  - intros ->. reflexivity.
Qed.

Lemma canvas_cache_kept_witness :
  Stateful.reusableCanvas
    (Stateful.initializeCanvasIfNeeded documentWithoutContext initialCache)
  = Some (Stateful.createElement documentWithoutContext).
Proof.
  apply (canvas_cache_kept documentWithoutContext initialCache). reflexivity.
Defined.

(** X2.  One measurement returns the width the measurer over a fixed host
    returns on the host of the document and the cache, whatever font the
    cached context had; it leaves a canvas in the cache and does not
    change that host, so the next measurement sees the same measurer. *)
Theorem measurement_over_cache (d : Stateful.Document) (text elementID : string)
    (k : Stateful.Cache) :
  fst (Stateful.calculateWidthOfTextForElement d text elementID k)
  = Measurer.calculateWidthOfTextForElement (Stateful.hostOfCache d k) text elementID
  /\ Stateful.hostOfCache d
       (snd (Stateful.calculateWidthOfTextForElement d text elementID k))
     = Stateful.hostOfCache d k
  /\ Stateful.reusableCanvas
       (snd (Stateful.calculateWidthOfTextForElement d text elementID k)) <> None.
Proof.
  destruct (calculateWidthOfTextForElement_host d text elementID k) as [E H].
  repeat split.
  - now rewrite E.
  - exact H.
  - apply calculateWidthOfTextForElement_canvas.
Qed.

(** The pass with the canvas is the pass over the host of the cache. *)
Lemma stateful_pass_host (d : Stateful.Document) (c : Component) (k : Stateful.Cache) :
  fst (Stateful.formatRecipientsForDisplay d c k)
  = formatRecipientsForDisplay (Stateful.hostOfCache d k) c
  /\ Stateful.hostOfCache d (snd (Stateful.formatRecipientsForDisplay d c k))
     = Stateful.hostOfCache d k.
Proof.
  unfold Stateful.formatRecipientsForDisplay, formatRecipientsForDisplay,
    Stateful.bind.
  destruct (calculateWidthOfTextForElement_host d ", ..."
              "recipients-text-measure-element" k) as [E1 H1].
  rewrite E1.
  set (k1 := snd (Stateful.calculateWidthOfTextForElement d ", ..."
                    "recipients-text-measure-element" k)) in *.
  cbn [recipients container badgeNumber].
  destruct (stateful_loop_host d (List.length (recipients c))
              (Measurer.calculateWidthOfTextForElement (Stateful.hostOfCache d k)
                 ", ..." "recipients-text-measure-element")
              (entries (recipients c)) (clientWidthOr0 c) "" 0 k1) as [E2 H2].
  rewrite H1 in E2, H2.
  destruct (Stateful.loop d _ _ _ _ _ _ k1) as [result k2].
  cbn [fst snd] in *. unfold Stateful.ret. cbn [fst snd].
  rewrite E2.
  destruct (loop _ _ _ _ _ _ _) as [s b]. split; [reflexivity | exact H2].
Qed.

(** X3.  The pass written with the canvas cache, started from any cache,
    leaves the component that the pass over a fixed host leaves on the
    host of the document and that cache, and does not change that host:
    what the cache held (a canvas, a context, the context's font) shows in
    the result only through the metrics of the context. *)
Theorem stateful_pass (d : Stateful.Document) (c : Component) (k : Stateful.Cache) :
  fst (Stateful.formatRecipientsForDisplay d c k)
  = formatRecipientsForDisplay (Stateful.hostOfCache d k) c
  /\ Stateful.hostOfCache d (snd (Stateful.formatRecipientsForDisplay d c k))
     = Stateful.hostOfCache d k
  /\ (forall k' : Stateful.Cache,
        Stateful.hostOfCache d k' = Stateful.hostOfCache d k ->
        fst (Stateful.formatRecipientsForDisplay d c k')
        = fst (Stateful.formatRecipientsForDisplay d c k)).
Proof.
  destruct (stateful_pass_host d c k) as [E H].
  repeat split; [exact E | exact H |].
  intros k' Hk'. destruct (stateful_pass_host d c k') as [E' _].
  now rewrite E, E', Hk'.
Qed.

Lemma stateful_pass_witness :
  fst (Stateful.formatRecipientsForDisplay documentWithoutContext
         (mount ["a"; "b"] (Some 100))
         {| Stateful.reusableCanvas := Some {| Stateful.getContext := None |};
            Stateful.reusableContext := None |})
  = fst (Stateful.formatRecipientsForDisplay documentWithoutContext
           (mount ["a"; "b"] (Some 100)) initialCache).
Proof.
  apply (proj2 (proj2 (stateful_pass documentWithoutContext
                         (mount ["a"; "b"] (Some 100)) initialCache))).
  reflexivity.
Defined.

(** X4.  The font family used for measuring is the text of the
    [font-family] value before its first comma-space: the value is that
    text followed by nothing or by a remainder that starts with a
    comma-space, and the text itself holds no comma-space. *)
Theorem font_family_first_field (s : string) :
  (exists rest : string,
     s = Stateful.firstField s ++ rest
     /\ (rest = "" \/ prefix ", " rest = true))
  /\ (forall p q : string, Stateful.firstField s <> p ++ ", " ++ q).
Proof.
  split; [apply firstField_prefix | intros p q; apply firstField_no_separator].
Qed.






(** X8.  For a list of at most one recipient no badge is ever shown, and
    what is displayed is the list itself, however narrow the container:
    a lone recipient is left to be clipped by the style sheet. *)
Theorem single_recipient_no_badge (h : Host) (c : Component) :
  (List.length (recipients c) <= 1)%nat ->
  badgeShown (formatRecipientsForDisplay h c) = false
  /\ displayedRecipients (formatRecipientsForDisplay h c) = Str.join (recipients c).
Proof.
  intros HN. unfold badgeShown, formatRecipientsForDisplay.
  cbn [recipients container badgeNumber].
  destruct (recipients c) as [|r [|r' rest]]; [| |simpl in HN; lia].
  - split; reflexivity.
  - cbn [entries List.length seq combine]. rewrite loop_cons.
    destruct (clientWidthOr0 c >? _)%Z; split; reflexivity.
Qed.

Lemma single_recipient_no_badge_witness :
  badgeShown (formatRecipientsForDisplay headless (mount ["a"] (Some 5))) = false
  /\ displayedRecipients (formatRecipientsForDisplay headless (mount ["a"] (Some 5)))
     = Str.join ["a"].
Proof.
  apply (single_recipient_no_badge headless (mount ["a"] (Some 5))). simpl. lia.
Defined.

(** ** The earlier variants *)

Section EarlierFacts.

Variable measureElement : option (string -> Z).

Local Open Scope string_scope.

Lemma calculateWidthOfText_widthOfText (text textContent : string) :
  calculateWidthOfText measureElement text textContent
  = (widthOfText measureElement text,
     match measureElement with Some _ => text | None => textContent end).
Proof. unfold calculateWidthOfText, widthOfText. now destruct measureElement. Qed.

Lemma breakIndexEarlier_range len ell suf : forall k avail i,
  breakIndexEarlier measureElement len ell
    (combine (seq k (List.length suf)) suf) avail = Some i ->
  (k <= i < k + List.length suf)%nat.
Proof.
  induction suf as [|r suf IH]; intros k avail i; [discriminate|].
  rewrite entries_from_cons. simpl breakIndexEarlier.
  destruct (avail >? _)%Z.
  - intros H. apply IH in H. simpl List.length. lia.
  - intros [= <-]. simpl List.length. lia.
Qed.

(** What the loops of the two earlier variants leave, from where they
    stop: the text, the badge number of the second variant, and the text
    left in the measure element. *)
Lemma earlier_loops_break len ell suf : forall k avail str badge textContent,
  len = (k + List.length suf)%nat ->
  let es := combine (seq k (List.length suf)) suf in
  let stop := breakIndexEarlier measureElement len ell es avail in
  let textContent' :=
    match measureElement with
    | None => textContent
    | Some _ =>
        match stop with
        | Some i => recipientTextAt len i (nth (i - k) suf "")
        | None => match suf with [] => textContent | _ => last suf "" end
        end
    end in
  Draft2.loop measureElement len ell es avail str badge textContent
  = (match stop with
     | None => str ++ Str.join suf
     | Some i => str ++ Str.separated (firstn (i - k) suf)
                     ++ (if (i =? 0)%nat then hd "" suf else "...")
     end,
     match stop with None => badge | Some i => badgeNumberValueAt len i end,
     textContent')
  /\ Draft1.loop measureElement len ell es avail str textContent
     = (match stop with
        | None => str ++ Str.join suf
        | Some i => str ++ Str.separated (firstn (i - k) suf) ++ "..."
        end,
        textContent').
Proof.
  induction suf as [|r suf IH]; intros k avail str badge textContent Hlen es stop tc.
  - subst es stop tc. cbn. rewrite StrFacts.append_nil_r.
    now destruct measureElement.
  - subst es stop tc. rewrite entries_from_cons.
    cbn [Draft2.loop Draft1.loop breakIndexEarlier].
    fold (isLastAt len k). fold (recipientTextAt len k r).
    rewrite calculateWidthOfText_widthOfText.
    unfold requiredEarlier.
    pose proof (recipientTextAt_head len k r suf Hlen) as Htext.
    destruct (avail >? _)%Z.
    + specialize (IH (S k) (avail - widthOfText measureElement (recipientTextAt len k r))
                    (str ++ recipientTextAt len k r) badge
                    (match measureElement with
                     | Some _ => recipientTextAt len k r
                     | None => textContent
                     end)
                    ltac:(simpl in Hlen; lia)).
      cbv zeta in IH. destruct IH as [IH2 IH1]. rewrite IH2, IH1.
      destruct (breakIndexEarlier measureElement len ell _ _) as [i|] eqn:Hb.
      * apply breakIndexEarlier_range in Hb.
        replace (i - k)%nat with (S (i - S k)) by lia.
        destruct i as [|i]; [lia|].
        cbn [firstn Str.separated Nat.eqb nth].
        rewrite Htext.
        destruct suf as [|r' suf]; [simpl in Hb; lia|].
        rewrite !StrFacts.append_assoc.
        split; destruct measureElement; reflexivity.
      * rewrite Htext. destruct suf as [|r' suf].
        -- rewrite StrFacts.append_nil_r.
           split; destruct measureElement; reflexivity.
        -- rewrite (StrFacts.join_cons r (r' :: suf)) by discriminate.
           rewrite !StrFacts.append_assoc.
           split; destruct measureElement; reflexivity.
    + rewrite Nat.sub_diag. cbn [firstn Str.separated hd nth].
      split; destruct measureElement; reflexivity.
Qed.

(** One pass of the second variant, from where it stops. *)
Lemma draft2_format_stop (c : Component) (textContent : string) :
  let stop := stopIndexEarlier measureElement (clientWidthOr0 c) (recipients c) in
  Draft2.formatRecipientsForDisplay measureElement c textContent
  = ({| recipients := recipients c; container := container c;
        displayedRecipients := rendered (recipients c) stop;
        badgeNumber := hiddenAt (List.length (recipients c)) stop |},
     match measureElement with
     | None => textContent
     | Some _ => lastMeasured (recipients c) stop
     end).
Proof.
  intros stop. subst stop.
  unfold Draft2.formatRecipientsForDisplay, stopIndexEarlier, entries.
  rewrite calculateWidthOfText_widthOfText.
  destruct (earlier_loops_break (List.length (recipients c))
              (widthOfText measureElement "...") (recipients c) 0
              (clientWidthOr0 c) "" 0
              (match measureElement with Some _ => "..." | None => textContent end)
              eq_refl) as [E _].
  rewrite E. clear E.
  destruct (breakIndexEarlier measureElement _ _ _ _) as [[|i]|];
    cbn [rendered hiddenAt lastMeasured Nat.eqb]; rewrite ?Nat.sub_0_r.
  - destruct measureElement; reflexivity.
  - rewrite StrFacts.join_snoc. destruct measureElement; reflexivity.
  - destruct measureElement; [|reflexivity]. now destruct (recipients c).
Qed.

(** One pass of the first variant, from where it stops. *)
Lemma draft1_format_stop (c : Component) (textContent : string) :
  let stop := stopIndexEarlier measureElement (clientWidthOr0 c) (recipients c) in
  Draft1.formatRecipientsForDisplay measureElement c textContent
  = ({| recipients := recipients c; container := container c;
        displayedRecipients := renderedFirst (recipients c) stop;
        badgeNumber := badgeNumber c |},
     match measureElement with
     | None => textContent
     | Some _ => lastMeasured (recipients c) stop
     end).
Proof.
  intros stop. subst stop.
  unfold Draft1.formatRecipientsForDisplay, stopIndexEarlier, entries.
  rewrite calculateWidthOfText_widthOfText. rewrite !Z.sub_0_r.
  destruct (earlier_loops_break (List.length (recipients c))
              (widthOfText measureElement "...") (recipients c) 0
              (clientWidthOr0 c) "" 0
              (match measureElement with Some _ => "..." | None => textContent end)
              eq_refl) as [_ E].
  rewrite E. clear E.
  destruct (breakIndexEarlier measureElement _ _ _ _) as [i|];
    cbn [renderedFirst lastMeasured]; rewrite ?Nat.sub_0_r.
  - rewrite StrFacts.join_snoc. destruct measureElement; reflexivity.
  - destruct measureElement; [|reflexivity]. now destruct (recipients c).
Qed.

Lemma stopIndexEarlier_range w rs i :
  stopIndexEarlier measureElement w rs = Some i -> (i < List.length rs)%nat.
Proof.
  unfold stopIndexEarlier, entries. intros H.
  apply breakIndexEarlier_range in H. lia.
Qed.

End EarlierFacts.

(** The final variant stops no later than the earlier ones when it
    measures the recipients as they do, its ellipsis is no narrower than
    theirs and what it reserves for the badge is not negative. *)
Lemma breakIndex_earlier_le (h : Host) (measureElement : option (string -> Z))
    (len : nat) (ell ellEarlier : Z) (suf : list string) :
  (forall text, widthOfText measureElement text
                = calculateWidthOfTextForElement h text "recipients-text-measure-element") ->
  ellEarlier <= ell ->
  (forall label, 0 <= calculateWidthOfTextForElement h label "badge-measure-element"
                      + 5 + 2 + 2) ->
  forall k avail,
  match breakIndex h len ell (combine (seq k (List.length suf)) suf) avail,
        breakIndexEarlier measureElement len ellEarlier
          (combine (seq k (List.length suf)) suf) avail with
  | Some i, Some j => (i <= j)%nat
  | None, Some _ => False
  | _, None => True
  end.
Proof.
  intros Hw Hell Hb.
  induction suf as [|r suf IH]; intros k avail; [exact I|].
  rewrite entries_from_cons. cbn [breakIndex breakIndexEarlier].
  assert (Hreq : requiredEarlier measureElement len ellEarlier k r
                 <= requiredAt h len ell k r).
  { unfold requiredEarlier, requiredAt, widthOfRecipientAt. rewrite Hw.
    assert (0 <= badgeReservationAt h len k).
    { unfold badgeReservationAt, widthOfBadgeAt.
      destruct (_ >? 0)%Z; [apply Hb | lia]. }
    destruct (isLastAt len k); lia. }
  destruct (avail >? requiredAt h len ell k r)%Z eqn:E.
  - assert (E' : (avail >? requiredEarlier measureElement len ellEarlier k r)%Z = true)
      by (apply Z.gtb_lt; apply Z.gtb_lt in E; lia).
    rewrite E'. unfold widthOfRecipientAt. rewrite <- Hw. apply IH.
  - destruct (avail >? requiredEarlier measureElement len ellEarlier k r)%Z.
    + destruct (breakIndexEarlier measureElement len ellEarlier _ _) as [j|] eqn:Hj;
        [|exact I].
      apply breakIndexEarlier_range in Hj. lia.
    + lia.
Qed.

(** The pass depends on the host through the measurer only. *)
Lemma loop_measurer_ext (h1 h2 : Host) :
  (forall text elementID,
     calculateWidthOfTextForElement h1 text elementID
     = calculateWidthOfTextForElement h2 text elementID) ->
  forall len ell es avail str badge,
    loop h1 len ell es avail str badge = loop h2 len ell es avail str badge.
Proof.
  intros Hext len ell es.
  induction es as [|[index r] es IH]; intros avail str badge; [reflexivity|].
  cbn [loop]. rewrite !Hext. destruct (_ >? _)%Z; [apply IH | reflexivity].
Qed.

Lemma format_measurer_ext (h1 h2 : Host) (c : Component) :
  (forall text elementID,
     calculateWidthOfTextForElement h1 text elementID
     = calculateWidthOfTextForElement h2 text elementID) ->
  formatRecipientsForDisplay h1 c = formatRecipientsForDisplay h2 c.
Proof.
  intros Hext. unfold formatRecipientsForDisplay.
  rewrite Hext. now rewrite (loop_measurer_ext h1 h2 Hext).
Qed.

(** X9.  The second variant shows whole identifiers and counts the
    others: with [k] the number of recipients it appended, what it
    displays is the join of the first [k] recipients, continued by
    ["..."] or not, [k] plus its badge number is the length of the list,
    and the prop and the container are left as they were. *)
Theorem draft2_shown_plus_hidden (measureElement : option (string -> Z))
    (c : Component) (textContent : string) :
  let c' := fst (Draft2.formatRecipientsForDisplay measureElement c textContent) in
  let k := shownCount (List.length (recipients c))
             (stopIndexEarlier measureElement (clientWidthOr0 c) (recipients c)) in
  (displayedRecipients c' = Str.join (firstn k (recipients c))
   \/ displayedRecipients c' = Str.join (firstn k (recipients c) ++ ["..."]))
  /\ Z.of_nat k + badgeNumber c' = Z.of_nat (List.length (recipients c))
  /\ recipients c' = recipients c
  /\ container c' = container c.
Proof.
  intros c' k. subst c' k. rewrite draft2_format_stop.
  cbn [fst displayedRecipients badgeNumber recipients container].
  pose proof (stopIndexEarlier_range measureElement (clientWidthOr0 c) (recipients c))
    as Hr.
  repeat split.
  - now apply rendered_shownCount.
  - now apply shownCount_plus_hiddenAt.
Qed.

(** X10.  Reserving room for the badge never shows more: when the final
    variant measures the recipients as the second variant does, its
    [", ..."] is no narrower than the second variant's ["..."] and no
    badge reservation is negative, the final variant hides at least as
    many recipients as the second one in the same container. *)
Theorem final_hides_no_fewer (h : Host) (measureElement : option (string -> Z))
    (w : Z) (rs : list string) (textContent : string) :
  (forall text, widthOfText measureElement text
                = calculateWidthOfTextForElement h text "recipients-text-measure-element") ->
  widthOfText measureElement "..." <= widthOfEllipses h ->
  (forall label, 0 <= calculateWidthOfTextForElement h label "badge-measure-element"
                      + 5 + 2 + 2) ->
  badgeNumber (fst (Draft2.formatRecipientsForDisplay measureElement
                      (mount rs (Some w)) textContent))
  <= snd (fit h w rs).
Proof.
  intros Hw Hell Hb. rewrite draft2_format_stop, fit_stopIndex.
  cbn [fst snd badgeNumber recipients mount].
  rewrite (clientWidthOr0_some (mount rs (Some w)) w) by reflexivity.
  pose proof (breakIndex_earlier_le h measureElement (List.length rs)
                (widthOfEllipses h) (widthOfText measureElement "...") rs
                Hw Hell Hb 0 w) as Hle.
  fold (entries rs) in Hle. fold (stopIndex h w rs) in Hle.
  fold (stopIndexEarlier measureElement w rs) in Hle.
  destruct (stopIndex h w rs) as [i|] eqn:E1;
    destruct (stopIndexEarlier measureElement w rs) as [j|] eqn:E2.
  - apply hiddenAt_antitone. apply stopIndexEarlier_range in E2. lia.
  - apply (hiddenAt_range (List.length rs) (Some i)).
    intros i' [= <-]. now apply stopIndex_range in E1.
  - contradiction.
  - cbn. lia.
Qed.

Lemma final_hides_no_fewer_witness :
  badgeNumber (fst (Draft2.formatRecipientsForDisplay None
                      (mount ["a"; "b"; "c"] (Some 160)) ""))
  <= snd (fit headless 160 ["a"; "b"; "c"]).
Proof.
  apply (final_hides_no_fewer headless None 160 ["a"; "b"; "c"] "").
  - intros text. reflexivity.
  - vm_compute. discriminate.
  - intros label. unfold calculateWidthOfTextForElement. simpl. lia.
Defined.

(** X11.  The first variant never assigns the badge number, and it
    displays what the second variant displays except when not even the
    first recipient fits: it then shows ["..."] alone where the second
    variant shows the first recipient.  Both leave the same text in the
    measure element. *)
Theorem first_variant_differs_at_first (measureElement : option (string -> Z))
    (c : Component) (textContent : string) :
  let stop := stopIndexEarlier measureElement (clientWidthOr0 c) (recipients c) in
  let r1 := Draft1.formatRecipientsForDisplay measureElement c textContent in
  let r2 := Draft2.formatRecipientsForDisplay measureElement c textContent in
  badgeNumber (fst r1) = badgeNumber c
  /\ (stop = Some 0%nat ->
      displayedRecipients (fst r1) = "..."
      /\ displayedRecipients (fst r2) = hd "" (recipients c))
  /\ (stop <> Some 0%nat ->
      displayedRecipients (fst r1) = displayedRecipients (fst r2))
  /\ snd r1 = snd r2.
Proof.
  intros stop r1 r2. subst stop r1 r2.
  rewrite draft1_format_stop, draft2_format_stop.
  cbn [fst snd displayedRecipients badgeNumber].
  split; [reflexivity|]. split; [|split; [|reflexivity]].
  - intros Hstop. rewrite Hstop. split; reflexivity.
  - intros Hstop.
    destruct (stopIndexEarlier measureElement _ _) as [[|i]|];
      [congruence | reflexivity | reflexivity].
Qed.

Lemma first_variant_differs_at_first_witness :
  displayedRecipients
    (fst (Draft1.formatRecipientsForDisplay None (mount ["a"; "b"] (Some 50)) ""))
  = "..."
  /\ displayedRecipients
       (fst (Draft2.formatRecipientsForDisplay None (mount ["a"; "b"] (Some 50)) ""))
     = hd "" ["a"; "b"].
Proof.
  apply (first_variant_differs_at_first None (mount ["a"; "b"] (Some 50)) "").
  reflexivity.
Defined.

(** X12.  Measuring by filling [#measure-element] leaves the last
    measured text in it: after a pass of the second variant the element
    holds the text of the recipient at which the pass stopped (with its
    separator unless it is the last one), or the last recipient when all
    were accepted, or ["..."] for an empty list, whatever it held before;
    when the document has no such element nothing is written. *)
Theorem measure_element_keeps_last_text (offsetWidth : string -> Z)
    (c : Component) (textContent : string) :
  snd (Draft2.formatRecipientsForDisplay (Some offsetWidth) c textContent)
  = lastMeasured (recipients c)
      (stopIndexEarlier (Some offsetWidth) (clientWidthOr0 c) (recipients c))
  /\ snd (Draft2.formatRecipientsForDisplay None c textContent) = textContent
  /\ (recipients c = [] ->
      snd (Draft2.formatRecipientsForDisplay (Some offsetWidth) c textContent) = "...").
Proof.
  rewrite !draft2_format_stop. cbn [snd]. repeat split.
  intros ->. reflexivity.
Qed.

Lemma measure_element_keeps_last_text_witness :
  snd (Draft2.formatRecipientsForDisplay (Some (fun _ => 10)) (mount [] (Some 50)) "x")
  = "...".
Proof.
  apply (measure_element_keeps_last_text (fun _ => 10) (mount [] (Some 50)) "x").
  reflexivity.
Defined.

(** X13.  Without a 2d context (the canvas gives none and none is
    cached) every width is the fallback formula: whatever elements the
    document has, the pass leaves what it leaves with no rendering surface
    at all. *)
Theorem no_context_fallback (d : Stateful.Document) (c : Component)
    (k : Stateful.Cache) :
  Stateful.reusableContext (Stateful.initializeCanvasIfNeeded d k) = None ->
  fst (Stateful.formatRecipientsForDisplay d c k)
  = formatRecipientsForDisplay headless c.
Proof.
  intros Hnone.
  destruct (stateful_pass_host d c k) as [E _]. rewrite E.
  apply format_measurer_ext. intros text elementID.
  unfold calculateWidthOfTextForElement, Stateful.hostOfCache.
  cbn [context2d elementFont]. rewrite Hnone. reflexivity.
Qed.

Lemma no_context_fallback_witness :
  fst (Stateful.formatRecipientsForDisplay documentWithoutContext
         (mount ["a"; "b"; "c"] (Some 160)) initialCache)
  = formatRecipientsForDisplay headless (mount ["a"; "b"; "c"] (Some 160)).
Proof.
  apply (no_context_fallback documentWithoutContext
           (mount ["a"; "b"; "c"] (Some 160)) initialCache).
  reflexivity.
Defined.

(** X14.  For one and the same measurer (one host for both passes):
    once nothing is hidden, widening the container changes nothing.  If a
    pass in a container of width [w] hides no recipient, a pass with that
    measurer in any wider container displays the same text and hides
    none. *)
Theorem nothing_hidden_stays (h : Host) (rs : list string) (w w' : Z) :
  snd (fit h w rs) = 0 ->
  w <= w' ->
  fit h w' rs = fit h w rs.
Proof.
  intros Hzero Hle. rewrite !fit_stopIndex in *. cbn [snd] in Hzero.
  pose proof (breakIndex_mono h (List.length rs) (widthOfEllipses h) rs 0 w' w Hle)
    as Hm.
  fold (entries rs) in Hm. fold (stopIndex h w' rs) in Hm. fold (stopIndex h w rs) in Hm.
  pose proof (stopIndex_range h w rs) as Hr.
  pose proof (stopIndex_range h w' rs) as Hr'.
  destruct (stopIndex h w rs) as [i|].
  - specialize (Hr i eq_refl). cbn [hiddenAt] in Hzero.
    unfold badgeNumberValueAt in Hzero.
    destruct i as [|i]; cbn [Nat.eqb] in Hzero; [|lia].
    destruct rs as [|r [|r' rest]]; [simpl in Hr; lia | | simpl List.length in Hzero; lia].
    destruct (stopIndex h w' [r]) as [[|i']|]; [reflexivity | | reflexivity].
    specialize (Hr' (S i') eq_refl). simpl in Hr'. lia.
  - destruct (stopIndex h w' rs) as [i'|]; [contradiction | reflexivity].
Qed.

Lemma nothing_hidden_stays_witness :
  fit headless 500 ["a"; "b"] = fit headless 200 ["a"; "b"].
Proof.
  apply (nothing_hidden_stays headless ["a"; "b"] 200 500).
  - reflexivity.
  - lia.
Defined.

(** ** Two passes *)

(** C9 (determinism), as the code has it.  Two passes over the same
    recipients, with the same container width and the same measurer (the
    documents and caches they start from give every text the same width
    for every element), leave the same [displayedRecipients] and the same
    [badgeNumber], whatever the output refs and the caches held before.
    Besides these two refs a pass writes the measurer's cache and nothing
    else: the prop and the container are as they were, a canvas is in the
    cache afterwards, and the measurer of the cache is unchanged. *)
Theorem pass_deterministic_over_cache (d1 d2 : Stateful.Document)
    (c1 c2 : Component) (k1 k2 : Stateful.Cache) :
  recipients c1 = recipients c2 ->
  clientWidthOr0 c1 = clientWidthOr0 c2 ->
  (forall text elementID,
     Measurer.calculateWidthOfTextForElement (Stateful.hostOfCache d1 k1) text elementID
     = Measurer.calculateWidthOfTextForElement (Stateful.hostOfCache d2 k2) text elementID) ->
  displayedRecipients (fst (Stateful.formatRecipientsForDisplay d1 c1 k1))
    = displayedRecipients (fst (Stateful.formatRecipientsForDisplay d2 c2 k2))
  /\ badgeNumber (fst (Stateful.formatRecipientsForDisplay d1 c1 k1))
    = badgeNumber (fst (Stateful.formatRecipientsForDisplay d2 c2 k2))
  /\ recipients (fst (Stateful.formatRecipientsForDisplay d1 c1 k1)) = recipients c1
  /\ container (fst (Stateful.formatRecipientsForDisplay d1 c1 k1)) = container c1
  /\ Stateful.reusableCanvas (snd (Stateful.formatRecipientsForDisplay d1 c1 k1))
     <> None
  /\ Stateful.hostOfCache d1 (snd (Stateful.formatRecipientsForDisplay d1 c1 k1))
     = Stateful.hostOfCache d1 k1.
Proof.
  intros Hrs Hw Hm.
  destruct (stateful_pass_host d1 c1 k1) as [E1 H1].
  destruct (stateful_pass_host d2 c2 k2) as [E2 _].
  rewrite E1, E2.
  rewrite (format_measurer_ext _ _ c1 Hm).
  rewrite !format_stopIndex. cbn [displayedRecipients badgeNumber recipients container].
  rewrite Hrs, Hw. repeat split; try reflexivity; [|exact H1].
  unfold Stateful.formatRecipientsForDisplay, Stateful.bind.
  pose proof (calculateWidthOfTextForElement_canvas d1 ", ..."
                "recipients-text-measure-element" k1) as Hc.
  destruct (Stateful.calculateWidthOfTextForElement d1 ", ..." _ k1) as [ell k1'].
  cbn [snd] in Hc.
  pose proof (stateful_loop_canvas d1 (List.length (recipients c1)) ell
                (entries (recipients c1)) (clientWidthOr0 c1) "" 0 k1' Hc) as Hl.
  destruct (Stateful.loop d1 _ _ _ _ _ _ k1') as [result k1''].
  exact Hl.
Qed.

Lemma pass_deterministic_over_cache_witness :
  displayedRecipients
    (fst (Stateful.formatRecipientsForDisplay documentWithContext
            {| recipients := ["a"; "b"; "c"]; container := Some 120;
               displayedRecipients := "a, ..."; badgeNumber := 2 |}
            initialCache))
  = displayedRecipients
      (fst (Stateful.formatRecipientsForDisplay documentWithContext
              (mount ["a"; "b"; "c"] (Some 120))
              (Stateful.initializeCanvasIfNeeded documentWithContext initialCache))).
Proof.
  apply (pass_deterministic_over_cache documentWithContext documentWithContext
           {| recipients := ["a"; "b"; "c"]; container := Some 120;
              displayedRecipients := "a, ..."; badgeNumber := 2 |}
           (mount ["a"; "b"; "c"] (Some 120))
           initialCache
           (Stateful.initializeCanvasIfNeeded documentWithContext initialCache)).
  - reflexivity.
  - reflexivity.
  - intros text elementID. reflexivity.
Defined.

(** C9 as stated fails: a pass does modify state other than the two
    output refs.  Started with both cache variables null, even over an
    empty list, it leaves the canvas it created in [reusableCanvas]. *)
Lemma pass_modifies_cache_counterexample :
  ~ (snd (Stateful.formatRecipientsForDisplay documentWithContext
            (mount [] (Some 120)) initialCache)
     = initialCache).
Proof.
  intros H. apply (f_equal Stateful.reusableCanvas) in H.
  cbn in H. discriminate H.
Qed.
